(** * TikTokApi.api.user: the [User] entity, hydration and cursor pagination

  A shallow embedding of [src/TikTokApi/api/user.py].

  - JSON payloads are an inductive type; a Python [dict] is an association
    list looked up by its first matching key.
  - Python's dynamic failures ([KeyError], [TypeError], [AttributeError])
    are kept: every operation the source applies to a payload is total here
    and returns either a value or the exception Python raises.
  - The entity, the transport and the observable events of a call (network
    fetches, yielded items, logged errors) are threaded through a small
    state-and-exception monad.
  - The three async generators are one small-step machine whose states are
    the suspension and decision points of the source loop. *)

From Stdlib Require Import ZArith List String Bool Lia.
Import ListNotations.
Open Scope string_scope.
Open Scope Z_scope.
Open Scope list_scope.
Set Warnings "-register-all".

(** ** Values *)

(** A parsed JSON value.  Python's [None] is [JNull]: the source cannot tell
  a transport that returned nothing from one that parsed the literal
  [null].  Numbers are integers here; the code never computes with them. *)
Inductive json : Type :=
| JNull
| JBool (b : bool)
| JNum (z : Z)
| JStr (s : string)
| JArr (l : list json)
| JObj (d : list (string * json)).

Inductive exn : Type :=
| InvalidResponseException (raw : json) (msg : string)
| TypeError (msg : string)
| KeyError (k : string)
| AttributeError (msg : string).

Inductive result (A : Type) : Type :=
| Ok (a : A)
| Raise (e : exn).
Arguments Ok {A} a.
Arguments Raise {A} e.

(** ** The Python operations the source applies to payloads *)

Module Py.

Fixpoint lookup (k : string) (d : list (string * json)) : option json :=
  match d with
  | [] => None
  | (k', v) :: d' => if String.eqb k k' then Some v else lookup k d'
  end.

(** [x is None] *)
Definition is_None (v : json) : bool :=
  match v with JNull => true | _ => false end.

(** [x == ""] *)
Definition eq_empty_str (v : json) : bool :=
  match v with JStr s => String.eqb s "" | _ => false end.

(** [bool(x)] *)
Definition truthy (v : json) : bool :=
  match v with
  | JNull => false
  | JBool b => b
  | JNum z => negb (z =? 0)
  | JStr s => negb (String.eqb s "")
  | JArr l => match l with [] => false | _ => true end
  | JObj d => match d with [] => false | _ => true end
  end.

(** [x.get(k, default)]: only a dict has [get]. *)
Definition get (v : json) (k : string) (default : json) : result json :=
  match v with
  | JObj d => Ok (match lookup k d with Some x => x | None => default end)
  | _ => Raise (AttributeError "get")
  end.

(** [k in x.keys()]: only a dict has [keys]. *)
Definition in_keys (k : string) (v : json) : result bool :=
  match v with
  | JObj d => Ok (match lookup k d with Some _ => true | None => false end)
  | _ => Raise (AttributeError "keys")
  end.

Definition is_str (k : string) (v : json) : bool :=
  match v with JStr s => String.eqb s k | _ => false end.

(** [k in x] for a string [k]: key membership in a dict, element membership
    in a list, substring test in a string, [TypeError] otherwise. *)
Definition contains (k : string) (v : json) : result bool :=
  match v with
  | JObj d => Ok (match lookup k d with Some _ => true | None => false end)
  | JArr l => Ok (existsb (is_str k) l)
  | JStr s => Ok (match String.index 0 k s with Some _ => true | None => false end)
  | _ => Raise (TypeError "argument is not iterable")
  end.

(** [x[k]] for a string [k]: [KeyError] on a dict without the key,
    [TypeError] on everything that is not a dict. *)
Definition getitem (v : json) (k : string) : result json :=
  match v with
  | JObj d => match lookup k d with Some x => Ok x | None => Raise (KeyError k) end
  | _ => Raise (TypeError "bad subscript")
  end.

Fixpoint chars (s : string) : list json :=
  match s with
  | EmptyString => []
  | String c s' => JStr (String c EmptyString) :: chars s'
  end.

(** What [for x in v] iterates over. *)
Definition iter (v : json) : result (list json) :=
  match v with
  | JArr l => Ok l
  | JStr s => Ok (chars s)
  | JObj d => Ok (map (fun kv => JStr (fst kv)) d)
  | _ => Raise (TypeError "object is not iterable")
  end.

End Py.

(** ** The entity *)

(** [__init__] assigns the three identifiers unconditionally, so they are
  always bound ([None] is [JNull]); [as_dict] is bound only once a payload
  was stored. *)
Record User : Type := mkUser {
  user_id : json;
  sec_uid : json;
  username : json;
  as_dict : option json
}.

(** What the transport is called with. *)
Record request : Type := mkRequest {
  url : string;
  params : list (string * json);
  headers : json;
  session : json;
  session_index : json
}.

(** [**kwargs], a dict; [kwargs.get(k)] is [None] for a missing key. *)
Definition kwargs := list (string * json).
Definition kwargs_get (kw : kwargs) (k : string) : json :=
  match Py.lookup k kw with Some v => v | None => JNull end.

Definition invalid_msg : string := "TikTok returned an invalid response.".
Definition empty_user_msg : string :=
  "TikTok returned empty user data. The user may not exist, be banned, or the request was blocked.".
Definition missing_id_msg : string :=
  "You must provide the username or sec_uid when creating this class.".

Definition detail_url : string := "https://www.tiktok.com/api/user/detail/".
Definition playlist_url : string := "https://www.tiktok.com/api/user/playlist".
Definition item_list_url : string := "https://www.tiktok.com/api/post/item_list/".
Definition favorite_url : string := "https://www.tiktok.com/api/favorite/item_list".

(** ** The parent context

    Every entity refers to one client object, [parent]: the transport
    [make_request], which answers a request with a payload or [None] and may
    change its own state, and the factories [video] and [playlist].  None of
    them is part of this module; they are its interface to the rest. *)
Class Parent : Type := {
  Server : Type;
  Entity : Type;
  make_request : Server -> request -> json * Server;
  video : json -> Entity;
  playlist : json -> Entity
}.

Section Api.

Context {parent : Parent}.

(** What a caller can observe of a call, in order. *)
Inductive event : Type :=
| Fetch (r : request)
| Yield (e : Entity)
| LogError (data : json).

Record World : Type := mkWorld {
  self : User;
  server : Server;
  log : list event
}.

(** State and exceptions: a raise keeps the world as it was when raised. *)
Definition M (A : Type) : Type := World -> World * result A.

Definition ret {A} (a : A) : M A := fun w => (w, Ok a).
Definition raise {A} (e : exn) : M A := fun w => (w, Raise e).
Definition bind {A B} (m : M A) (f : A -> M B) : M B :=
  fun w => match m w with
           | (w', Ok a) => f a w'
           | (w', Raise e) => (w', Raise e)
           end.
Definition lift {A} (r : result A) : M A := fun w => (w, r).

Notation "x <- m ;; k" := (bind m (fun x => k))
  (at level 61, m at next level, right associativity).
Notation "m ;;; k" := (bind m (fun _ => k))
  (at level 61, right associativity).

Definition get_self : M User := fun w => (w, Ok (self w)).
Definition emit (e : event) : M unit :=
  fun w => (mkWorld (self w) (server w) (log w ++ [e]), Ok tt).

(** [await self.parent.make_request(...)] *)
Definition do_request (r : request) : M json :=
  fun w => let (resp, s') := make_request (server w) r in
           (mkWorld (self w) s' (log w ++ [Fetch r]), Ok resp).

(** [self.as_dict = data] *)
Definition set_as_dict (data : json) : M unit :=
  fun w => let u := self w in
           (mkWorld (mkUser (user_id u) (sec_uid u) (username u) (Some data))
                    (server w) (log w), Ok tt).

(** [__update_id_sec_uid_username] *)
Definition update_id_sec_uid_username (id sec_uid' username' : json) : M unit :=
  fun w => (mkWorld (mkUser id sec_uid' username' (as_dict (self w)))
                    (server w) (log w), Ok tt).

(** [None in (self.username, self.user_id, self.sec_uid)] *)
Definition any_id_None (u : User) : bool :=
  Py.is_None (username u) || Py.is_None (user_id u) || Py.is_None (sec_uid u).

(** [__extract_from_data] *)
Definition extract_from_data : M unit :=
  u <- get_self ;;
  data <- lift (match as_dict u with
                | Some d => Ok d
                | None => Raise (AttributeError "as_dict")
                end) ;;
  nested <- lift (Py.in_keys "userInfo" data) ;;
  (if nested then
     info_obj <- lift (Py.getitem data "userInfo") ;;
     user_data <- lift (Py.get info_obj "user" (JObj [])) ;;
     (if negb (Py.truthy user_data)
      then raise (InvalidResponseException data empty_user_msg)
      else
        has_id <- lift (Py.contains "id" user_data) ;;
        if negb has_id
        then raise (InvalidResponseException data empty_user_msg)
        else
          i <- lift (Py.getitem user_data "id") ;;
          s <- lift (Py.getitem user_data "secUid") ;;
          n <- lift (Py.getitem user_data "uniqueId") ;;
          update_id_sec_uid_username i s n)
   else
     i <- lift (Py.getitem data "id") ;;
     s <- lift (Py.getitem data "secUid") ;;
     n <- lift (Py.getitem data "uniqueId") ;;
     update_id_sec_uid_username i s n) ;;;
  u' <- get_self ;;
  if any_id_None u' then emit (LogError data) else ret tt.

(** [__init__(username, user_id, sec_uid, data)], run on the new object. *)
Definition init (username' user_id' sec_uid' data : json) : M unit :=
  update_id_sec_uid_username user_id' sec_uid' username' ;;;
  if Py.is_None data then ret tt
  else set_as_dict data ;;; extract_from_data.

(** The [url_params] dict and the call [info] makes. *)
Definition detail_request (kw : kwargs) (u : User) : request :=
  mkRequest detail_url
    [("secUid", if Py.is_None (sec_uid u) then JStr "" else sec_uid u);
     ("uniqueId", if Py.is_None (username u) then JStr "" else username u);
     ("msToken", kwargs_get kw "ms_token")]
    (kwargs_get kw "headers")
    (kwargs_get kw "session")
    (kwargs_get kw "session_index").

(** [info], with its keyword arguments *)
Definition info (kw : kwargs) : M json :=
  u <- get_self ;;
  if negb (Py.truthy (username u)) && negb (Py.truthy (sec_uid u))
  then raise (TypeError missing_id_msg)
  else
    resp <- do_request (detail_request kw u) ;;
    if Py.is_None resp
    then raise (InvalidResponseException resp invalid_msg)
    else
      set_as_dict resp ;;;
      extract_from_data ;;;
      ret resp.

(** The first lines of [playlists], [videos], [videos_page] and [liked]:
    hydrate when [sec_uid] is [None] or empty. *)
Definition hydrate_if_missing (kw : kwargs) : M unit :=
  u <- get_self ;;
  if Py.is_None (sec_uid u) || Py.eq_empty_str (sec_uid u)
  then info kw ;;; ret tt
  else ret tt.

(** *** The pagination loop

    [playlists], [videos] and [liked] have the same body; they differ in the
    URL, in the ["count"] parameter they send, in the key of the item list
    and in the factory applied to each item. *)
Record endpoint : Type := mkEndpoint {
  ep_url : string;
  ep_count : Z -> Z;
  ep_key : string;
  ep_factory : json -> Entity
}.

Definition playlists_ep : endpoint :=
  mkEndpoint playlist_url (fun count => Z.min count 20) "playList" playlist.
Definition videos_ep : endpoint :=
  mkEndpoint item_list_url (fun _ => 35) "itemList" video.
Definition liked_ep : endpoint :=
  mkEndpoint favorite_url (fun _ => 35) "itemList" video.

(** The [params] dict and the call built at the top of the loop body. *)
Definition page_request (ep : endpoint) (count : Z) (cursor : json)
    (kw : kwargs) (u : User) : request :=
  mkRequest (ep_url ep)
            [("secUid", sec_uid u);
             ("count", JNum (ep_count ep count));
             ("cursor", cursor)]
            (kwargs_get kw "headers")
            (kwargs_get kw "session")
            (kwargs_get kw "session_index").

(** What [for x in resp.get(key, [])] iterates over. *)
Definition page_items (ep : endpoint) (resp : json) : result (list json) :=
  match Py.get resp (ep_key ep) (JArr []) with
  | Ok page => Py.iter page
  | Raise e => Raise e
  end.

(** Where the generator can be: not started; at the loop test; inside the
    [for] loop over a page, before yielding the head of [rest]; returned;
    or finished by an exception. *)
Inductive gstate : Type :=
| GStart
| GHead (found : Z) (cursor : json)
| GItems (resp : json) (rest : list json) (found : Z)
| GDone
| GRaised (e : exn).

Definition gen_step (ep : endpoint) (count : Z) (cursor0 : json)
    (kw : kwargs) (g : gstate) : M gstate :=
  match g with
  | GStart =>
      hydrate_if_missing kw ;;;
      ret (GHead 0 cursor0)
  | GHead found cursor =>
      if found <? count then
        u <- get_self ;;
        resp <- do_request (page_request ep count cursor kw u) ;;
        if Py.is_None resp
        then raise (InvalidResponseException resp invalid_msg)
        else
          items <- lift (page_items ep resp) ;;
          ret (GItems resp items found)
      else ret GDone
  | GItems resp (x :: rest) found =>
      emit (Yield (ep_factory ep x)) ;;;
      ret (GItems resp rest (found + 1))
  | GItems resp [] found =>
      more <- lift (Py.get resp "hasMore" (JBool false)) ;;
      if negb (Py.truthy more) then ret GDone
      else
        cursor <- lift (Py.get resp "cursor" JNull) ;;
        ret (GHead found cursor)
  | GDone => ret GDone
  | GRaised e => ret (GRaised e)
  end.

(** One transition of the generator; an exception finishes it. *)
Definition step (ep : endpoint) (count : Z) (cursor0 : json) (kw : kwargs)
    (c : World * gstate) : World * gstate :=
  match gen_step ep count cursor0 kw (snd c) (fst c) with
  | (w', Ok g') => (w', g')
  | (w', Raise e) => (w', GRaised e)
  end.

Fixpoint run (ep : endpoint) (count : Z) (cursor0 : json) (kw : kwargs)
    (n : nat) (c : World * gstate) : World * gstate :=
  match n with
  | O => c
  | S n' => run ep count cursor0 kw n' (step ep count cursor0 kw c)
  end.

(** The three generators: [playlists count cursor kw n c] is the
    configuration [n] transitions after [c], and [(w, GStart)] is the
    generator as the call creates it in world [w]. *)
Definition playlists := run playlists_ep.
Definition videos := run videos_ep.
Definition liked := run liked_ep.

(** *** [videos_page] *)

(** The values of the returned dict: payload values or the list built by
    the comprehension. *)
Inductive pyobj : Type :=
| PJson (v : json)
| PList (l : list Entity).

Definition videos_page (count : Z) (cursor : json) (kw : kwargs)
    : M (list (string * pyobj)) :=
  hydrate_if_missing kw ;;;
  u <- get_self ;;
  resp <- do_request
            (mkRequest item_list_url
                       [("secUid", sec_uid u);
                        ("count", JNum (Z.min count 35));
                        ("cursor", cursor)]
                       (kwargs_get kw "headers")
                       (kwargs_get kw "session")
                       (kwargs_get kw "session_index")) ;;
  if Py.is_None resp
  then raise (InvalidResponseException resp invalid_msg)
  else
    page <- lift (Py.get resp "itemList" (JArr [])) ;;
    items <- lift (Py.iter page) ;;
    cur <- lift (Py.get resp "cursor" JNull) ;;
    more <- lift (Py.get resp "hasMore" (JBool false)) ;;
    ret [("videos", PList (map video items));
         ("cursor", PJson cur);
         ("hasMore", PJson more)].

(** *** Reading a log *)

Definition is_fetch_to (u : string) (e : event) : bool :=
  match e with Fetch r => String.eqb (url r) u | _ => false end.
Definition is_fetch (e : event) : bool :=
  match e with Fetch _ => true | _ => false end.

Definition fetches_to (u : string) (l : list event) : nat :=
  List.length (filter (is_fetch_to u) l).
Definition fetches (l : list event) : nat := List.length (filter is_fetch l).
Definition yielded (l : list event) : list Entity :=
  flat_map (fun e => match e with Yield x => [x] | _ => [] end) l.
Definition requests (l : list event) : list request :=
  flat_map (fun e => match e with Fetch r => [r] | _ => [] end) l.

(** What a call adds to the log when it may hydrate: at most one fetch, to
    the profile URL, and no yield. *)
Definition hydration_events (new : list event) : Prop :=
  (fetches_to detail_url new <= 1)%nat
  /\ fetches_to item_list_url new = 0%nat
  /\ fetches new = fetches_to detail_url new
  /\ yielded new = [].

(** The events a turn of the loop of endpoint [ep] may add for entity [u]:
    a fetch of a page of that endpoint for that entity, with some cursor,
    or a yield; never a logged error. *)
Definition loop_event (ep : endpoint) (count : Z) (kw : kwargs) (u : User)
    (e : event) : Prop :=
  match e with
  | Fetch r => exists cursor, r = page_request ep count cursor kw u
  | Yield _ => True
  | LogError _ => False
  end.

(** The local [found] of a generator inside its loop. *)
Definition found_of (g : gstate) : option Z :=
  match g with
  | GHead found _ => Some found
  | GItems _ _ found => Some found
  | _ => None
  end.

Definition running (g : gstate) : bool :=
  match g with GDone | GRaised _ => false | _ => true end.

(** The object [__init__] is run on, and [User(...)] itself. *)
Definition blank : User := mkUser JNull JNull JNull None.
Definition construct (srv : Server) (username' user_id' sec_uid' data : json)
    : World * result unit :=
  init username' user_id' sec_uid' data (mkWorld blank srv []).

End Api.

(** ** A parent to run the code on

    Entities that only wrap their payload, and a transport that replays a
    script of answers and answers [None] once the script is over. *)
Inductive entity : Type :=
| Video (data : json)
| Playlist (data : json).

Definition replay (script : list json) (_ : request) : json * list json :=
  match script with
  | [] => (JNull, [])
  | r :: script' => (r, script')
  end.

Definition replay_parent : Parent :=
  {| Server := list json; Entity := entity; make_request := replay;
     video := Video; playlist := Playlist |}.

(** A transport that gives the same answer to every request. *)
Definition always_parent (resp : json) : Parent :=
  {| Server := unit; Entity := entity;
     make_request := fun _ _ => (resp, tt);
     video := Video; playlist := Playlist |}.

Definition profile (id sec name : json) : json :=
  JObj [("userInfo",
         JObj [("user", JObj [("id", id); ("secUid", sec); ("uniqueId", name)])])].

(** [{"userInfo": {"user": {"id": "1", "secUid": "s1", "uniqueId": "bob"}}}] *)
Definition profile_bob : json := profile (JStr "1") (JStr "s1") (JStr "bob").

(** [{"userInfo": {"user": {"id": "1", "secUid": null, "uniqueId": "bob"}}}] *)
Definition profile_null_sec : json := profile (JStr "1") JNull (JStr "bob").

(** [{"userInfo": {"user": {"id": "1"}}}] *)
Definition profile_only_id : json :=
  JObj [("userInfo", JObj [("user", JObj [("id", JStr "1")])])].

(** [{"userInfo": {}}] *)
Definition profile_absent : json := JObj [("userInfo", JObj [])].

(** A page of [n] items under [key]. *)
Definition page (key : string) (n : nat) (cursor has_more : json) : json :=
  JObj [(key, JArr (repeat (JObj [("id", JStr "v")]) n));
        ("cursor", cursor);
        ("hasMore", has_more)].

(** A page of two items with a cursor and no ["hasMore"]. *)
Definition page_without_has_more : json :=
  JObj [("itemList", JArr (repeat (JObj [("id", JStr "v")]) 2));
        ("cursor", JStr "10")].


(** [User(username="bob")] and [User("bob", "1", "s1")]. *)
Definition only_bob : User := mkUser JNull JNull (JStr "bob") None.
Definition known_bob : User := mkUser (JStr "1") (JStr "s1") (JStr "bob") None.

Definition world_of (u : User) (script : list json) : @World replay_parent :=
  @mkWorld replay_parent u script [].

(** ** Properties *)

Section Facts.

Context {parent : Parent}.

Lemma world_eta (w : World) : mkWorld (self w) (server w) (log w) = w.
Proof. destruct w; reflexivity. Qed.

Lemma run_add ep count c0 kw (n m : nat) (c : World * gstate) :
  run ep count c0 kw (n + m) c = run ep count c0 kw m (run ep count c0 kw n c).
Proof.
  revert c; induction n as [|n IH]; intros c; simpl; [reflexivity|].
  apply IH.
Qed.

Lemma run_done ep count c0 kw (n : nat) (w : World) :
  run ep count c0 kw n (w, GDone) = (w, GDone).
Proof. induction n as [|n IH]; simpl; [reflexivity|exact IH]. Qed.

Lemma run_raised ep count c0 kw (n : nat) (w : World) (e : exn) :
  run ep count c0 kw n (w, GRaised e) = (w, GRaised e).
Proof. induction n as [|n IH]; simpl; [reflexivity|exact IH]. Qed.

(** The loop test fails: the generator returns and the world is untouched. *)
Lemma step_head_enough ep count c0 kw (w : World) found cursor :
  count <= found ->
  step ep count c0 kw (w, GHead found cursor) = (w, GDone).
Proof.
  intros H. unfold step; simpl.
  destruct (Z.ltb_spec found count); [lia|reflexivity].
Qed.

(** The loop test passes: one fetch is made, and what follows depends on
    the answer alone. *)
Lemma step_head_fetch ep count c0 kw (w : World) found cursor resp srv' :
  found < count ->
  make_request (server w) (page_request ep count cursor kw (self w)) = (resp, srv') ->
  step ep count c0 kw (w, GHead found cursor) =
  (mkWorld (self w) srv' (log w ++ [Fetch (page_request ep count cursor kw (self w))]),
   if Py.is_None resp
   then GRaised (InvalidResponseException resp invalid_msg)
   else match page_items ep resp with
        | Ok items => GItems resp items found
        | Raise e => GRaised e
        end).
Proof.
  intros Hlt Hreq. unfold step; simpl.
  destruct (Z.ltb_spec found count); [|lia].
  unfold bind, get_self, do_request, raise, lift, ret; simpl.
  rewrite Hreq.
  destruct (Py.is_None resp); [reflexivity|].
  destruct (page_items ep resp); reflexivity.
Qed.

(** Inside the [for] loop every remaining item is yielded, one per step,
    and nothing else happens. *)
Lemma run_items ep count c0 kw (items : list json) :
  forall (w : World) resp found,
    run ep count c0 kw (List.length items) (w, GItems resp items found) =
    (mkWorld (self w) (server w)
             (log w ++ map (fun x => Yield (ep_factory ep x)) items),
     GItems resp [] (found + Z.of_nat (List.length items))).
Proof.
  induction items as [|x items IH]; intros w resp found.
  - simpl. rewrite app_nil_r, Z.add_0_r, world_eta. reflexivity.
  - cbn [List.length run]. unfold step at 1. cbn.
    rewrite IH. cbn [self server log].
    rewrite <- app_assoc. cbn [app].
    f_equal. f_equal. lia.
Qed.

(** After the last item of a page: return without [hasMore], else go back
    to the loop test with the cursor of the answer. *)
Lemma step_page_end ep count c0 kw (w : World) fields found :
  step ep count c0 kw (w, GItems (JObj fields) [] found) =
  (w, if Py.truthy (match Py.lookup "hasMore" fields with
                    | Some m => m
                    | None => JBool false
                    end)
      then GHead found (match Py.lookup "cursor" fields with
                        | Some c => c
                        | None => JNull
                        end)
      else GDone).
Proof.
  unfold step; cbn.
  unfold bind, lift, ret; cbn.
  destruct (Py.truthy _); reflexivity.
Qed.

(** [User(username=name)] is the entity that knows its name only. *)
Lemma construct_only_username (srv : Server) name :
  construct srv (JStr name) JNull JNull JNull
  = (mkWorld (mkUser JNull JNull (JStr name) None) srv [], Ok tt).
Proof. reflexivity. Qed.

(** With [sec_uid] known the generator starts without touching the world. *)
Lemma step_start_known ep count c0 kw (w : World) :
  Py.is_None (sec_uid (self w)) || Py.eq_empty_str (sec_uid (self w)) = false ->
  step ep count c0 kw (w, GStart) = (w, GHead 0 c0).
Proof.
  intros H. unfold step; cbn.
  unfold bind, hydrate_if_missing, bind, get_self; cbn.
  rewrite H. reflexivity.
Qed.

(** A whole turn of the loop on an answer that is a dict with an iterable
    item list: the fetch, then one yield per item. *)
Lemma run_page ep count c0 kw (w : World) found cursor fields srv' items :
  found < count ->
  make_request (server w) (page_request ep count cursor kw (self w))
    = (JObj fields, srv') ->
  page_items ep (JObj fields) = Ok items ->
  run ep count c0 kw (S (List.length items)) (w, GHead found cursor) =
  (mkWorld (self w) srv'
           (log w ++ Fetch (page_request ep count cursor kw (self w))
                  :: map (fun x => Yield (ep_factory ep x)) items),
   GItems (JObj fields) [] (found + Z.of_nat (List.length items))).
Proof.
  intros Hlt Hreq Hitems.
  cbn [run]. rewrite (step_head_fetch _ _ _ _ _ _ _ _ _ Hlt Hreq).
  cbn [Py.is_None]. rewrite Hitems, run_items. cbn [self server log].
  rewrite <- app_assoc. reflexivity.
Qed.


(** C2: when the transport answers [None] to the fetch of any turn of the
    loop, whatever was yielded before, the generator is finished by
    [InvalidResponseException] in that very step; the log then holds what
    it held before plus that one fetch, and never grows again. *)
Theorem null_response_aborts ep count c0 kw (w : World) found cursor srv' :
  found < count ->
  make_request (server w) (page_request ep count cursor kw (self w))
    = (JNull, srv') ->
  forall k,
    run ep count c0 kw (S k) (w, GHead found cursor) =
    (mkWorld (self w) srv'
             (log w ++ [Fetch (page_request ep count cursor kw (self w))]),
     GRaised (InvalidResponseException JNull invalid_msg)).
Proof.
  intros Hlt Hreq k. cbn [run].
  rewrite (step_head_fetch _ _ _ _ _ _ _ _ _ Hlt Hreq). cbn [Py.is_None].
  apply run_raised.
Qed.

(** C4: when the answer to a fetch has [hasMore] false or has no [hasMore]
    at all, the generator yields the items of that page and returns, also
    when fewer than [count] items were produced; no fetch follows. *)
Theorem stops_without_continuation
    ep count c0 kw (w : World) found cursor fields srv' items :
  found < count ->
  make_request (server w) (page_request ep count cursor kw (self w))
    = (JObj fields, srv') ->
  page_items ep (JObj fields) = Ok items ->
  Py.lookup "hasMore" fields = None \/
  Py.lookup "hasMore" fields = Some (JBool false) ->
  forall k,
    run ep count c0 kw (S (S (List.length items)) + k) (w, GHead found cursor) =
    (mkWorld (self w) srv'
             (log w ++ Fetch (page_request ep count cursor kw (self w))
                    :: map (fun x => Yield (ep_factory ep x)) items),
     GDone).
Proof.
  intros Hlt Hreq Hitems Hmore k.
  replace (S (S (List.length items)) + k)%nat
    with (S (List.length items) + (1 + k))%nat by lia.
  rewrite run_add, (run_page _ _ _ _ _ _ _ _ _ _ Hlt Hreq Hitems).
  cbn [run Nat.add]. rewrite step_page_end.
  destruct Hmore as [-> | ->]; cbn [Py.truthy]; apply run_done.
Qed.

(** C5: [info] on an entity whose [username] and [sec_uid] are both [None]
    raises the [TypeError] that asks for an identifier, and the world is
    left as it was: the transport was not called and nothing was logged. *)
Theorem info_without_identifier kw (w : World) :
  username (self w) = JNull ->
  sec_uid (self w) = JNull ->
  info kw w = (w, Raise (TypeError missing_id_msg)).
Proof.
  intros Hu Hs. unfold info, bind, get_self; cbn.
  rewrite Hu, Hs. reflexivity.
Qed.

(** *** Hydration *)

Ltac break_match :=
  repeat (cbn in *;
          match goal with
          | H : (_, _) = (_, _) |- _ => inversion H; subst; clear H
          | H : context [match ?x with _ => _ end] |- _ => destruct x eqn:?
          end; try discriminate).

(** [__extract_from_data] changes nothing when it raises. *)
Lemma extract_raise (w w' : World) e :
  extract_from_data w = (w', Raise e) -> w' = w.
Proof.
  unfold extract_from_data, bind, get_self, lift, raise, ret, emit,
    update_id_sec_uid_username.
  intros H. break_match; reflexivity.
Qed.

(** When it returns, the three identifiers are the ["id"], ["secUid"] and
    ["uniqueId"] entries of the profile, which is the payload itself or its
    [userInfo.user]; an error is logged exactly when one of them is [None]. *)
Lemma extract_ok (w w' : World) data :
  as_dict (self w) = Some data ->
  extract_from_data w = (w', Ok tt) ->
  exists prof,
    (prof = data \/
     exists ui, Py.getitem data "userInfo" = Ok ui /\
                Py.get ui "user" (JObj []) = Ok prof)
    /\ Py.getitem prof "id" = Ok (user_id (self w'))
    /\ Py.getitem prof "secUid" = Ok (sec_uid (self w'))
    /\ Py.getitem prof "uniqueId" = Ok (username (self w'))
    /\ as_dict (self w') = Some data
    /\ server w' = server w
    /\ log w' = log w ++ (if any_id_None (self w') then [LogError data] else []).
Proof.
  unfold extract_from_data, bind, get_self, lift, raise, ret, emit,
    update_id_sec_uid_username.
  intros Hd H. rewrite Hd in H.
  destruct (Py.in_keys "userInfo" data) as [[|]|] eqn:Hk; cbn in H;
    try discriminate.
  - destruct (Py.getitem data "userInfo") as [ui|] eqn:Hui; cbn in H;
      try discriminate.
    destruct (Py.get ui "user" (JObj [])) as [prof|] eqn:Hp; cbn in H;
      try discriminate.
    exists prof. split; [right; eauto|].
    destruct (Py.truthy prof); cbn in H; try discriminate.
    destruct (Py.contains "id" prof) as [[|]|]; cbn in H; try discriminate.
    destruct (Py.getitem prof "id") as [i|]; cbn in H; try discriminate.
    destruct (Py.getitem prof "secUid") as [s|]; cbn in H; try discriminate.
    destruct (Py.getitem prof "uniqueId") as [n|]; cbn in H; try discriminate.
    rewrite Hd in H.
    destruct (any_id_None (mkUser i s n (Some data))) eqn:Hn; cbn in H;
      inversion H; subst; clear H; cbn; rewrite Hn;
      repeat split; try reflexivity.
    symmetry; apply app_nil_r.
  - exists data. split; [left; reflexivity|].
    destruct (Py.getitem data "id") as [i|]; cbn in H; try discriminate.
    destruct (Py.getitem data "secUid") as [s|]; cbn in H; try discriminate.
    destruct (Py.getitem data "uniqueId") as [n|]; cbn in H; try discriminate.
    rewrite Hd in H.
    destruct (any_id_None (mkUser i s n (Some data))) eqn:Hn; cbn in H;
      inversion H; subst; clear H; cbn; rewrite Hn;
      repeat split; try reflexivity.
    symmetry; apply app_nil_r.
Qed.

#[local] Arguments extract_from_data : simpl never.

(** The ways [info] can end. *)
Lemma info_cases kw (w w' : World) r :
  info kw w = (w', r) ->
  (w' = w /\ r = Raise (TypeError missing_id_msg))
  \/ exists resp srv',
       make_request (server w) (detail_request kw (self w)) = (resp, srv') /\
       let u := self w in
       let stored := mkWorld (mkUser (user_id u) (sec_uid u) (username u) (Some resp))
                       srv' (log w ++ [Fetch (detail_request kw u)]) in
       (resp = JNull /\ r = Raise (InvalidResponseException JNull invalid_msg)
        /\ w' = mkWorld u srv' (log w ++ [Fetch (detail_request kw u)]))
       \/ (resp <> JNull /\ exists e, r = Raise e /\ w' = stored /\
           extract_from_data stored = (stored, Raise e))
       \/ (resp <> JNull /\ r = Ok resp /\
           extract_from_data stored = (w', Ok tt)).
Proof.
  unfold info, bind, get_self, raise, do_request, set_as_dict, ret. cbn.
  destruct (negb (Py.truthy (username (self w))) &&
            negb (Py.truthy (sec_uid (self w)))).
  - intros H; inversion H; auto.
  - destruct (make_request (server w) (detail_request kw (self w)))
      as [resp srv'] eqn:Hreq. cbn.
    intros H. right. exists resp, srv'. split; [reflexivity|]. cbn.
    destruct (Py.is_None resp) eqn:Hnone.
    + destruct resp; try discriminate. inversion H; subst. left; auto.
    + assert (Hresp : resp <> JNull) by (intros ->; discriminate).
      right.
      destruct (extract_from_data _) as [w2 [[]|e]] eqn:He in H;
        inversion H; subst; clear H.
      * right. auto.
      * left. split; [assumption|]. exists e.
        pose proof (extract_raise _ _ _ He) as Hw. subst. auto.
Qed.

(** A stored dict payload that carries the three entries, at top level
    without ["userInfo"] or inside the dict [userInfo.user], is accepted:
    the identifiers become the entries, and a [None] among them is logged. *)
Lemma extract_profile (w : World) fields prof i s n :
  as_dict (self w) = Some (JObj fields) ->
  (Py.lookup "userInfo" fields = None /\ prof = fields)
  \/ (exists ui, Py.lookup "userInfo" fields = Some (JObj ui)
                 /\ Py.lookup "user" ui = Some (JObj prof)) ->
  Py.lookup "id" prof = Some i ->
  Py.lookup "secUid" prof = Some s ->
  Py.lookup "uniqueId" prof = Some n ->
  extract_from_data w
  = (mkWorld (mkUser i s n (Some (JObj fields))) (server w)
       (log w ++ (if any_id_None (mkUser i s n (Some (JObj fields)))
                  then [LogError (JObj fields)] else [])),
     Ok tt).
Proof.
  intros Hd Hwhere Hi Hs Hn.
  unfold extract_from_data, bind, get_self, lift, raise, ret, emit,
    update_id_sec_uid_username.
  rewrite Hd. cbn [Py.in_keys Py.getitem Py.get].
  destruct Hwhere as [[Hui ->]|(ui & Hui & Huser)]; rewrite Hui.
  - rewrite Hi, Hs, Hn. cbn. rewrite Hd.
    destruct (any_id_None _); [reflexivity|].
    rewrite app_nil_r. reflexivity.
  - cbn. rewrite Huser.
    assert (Htruthy : Py.truthy (JObj prof) = true).
    { destruct prof; [discriminate|reflexivity]. }
    rewrite Htruthy. cbn. rewrite Hi, Hs, Hn. cbn. rewrite Hd.
    destruct (any_id_None _); [reflexivity|].
    rewrite app_nil_r. reflexivity.
Qed.

(** C6, as the code has it.  First, when [info] returns, the entity holds
    the payload, and its three identifiers are the ["id"], ["secUid"] and
    ["uniqueId"] entries of the profile in it; they are all different from
    [None] exactly when nothing is logged.  Second, [info] does return, on
    any entity with a truthy [username] or [sec_uid], whenever the
    transport answers a dict that carries the three entries, at top level
    without ["userInfo"] or inside the dict [userInfo.user]: it returns
    that answer, the identifiers are the three entries whatever they are,
    and a [None] among them is left in place and logged, never raised. *)
Theorem info_success_identifiers kw (w : World) :
  (forall w' resp,
      info kw w = (w', Ok resp) ->
      exists prof,
        (prof = resp \/
         exists ui, Py.getitem resp "userInfo" = Ok ui /\
                    Py.get ui "user" (JObj []) = Ok prof)
        /\ Py.getitem prof "id" = Ok (user_id (self w'))
        /\ Py.getitem prof "secUid" = Ok (sec_uid (self w'))
        /\ Py.getitem prof "uniqueId" = Ok (username (self w'))
        /\ as_dict (self w') = Some resp
        /\ log w' = log w ++ Fetch (detail_request kw (self w))
                          :: (if any_id_None (self w')
                              then [LogError resp] else []))
  /\ (forall fields prof i s n srv',
         negb (Py.truthy (username (self w)))
         && negb (Py.truthy (sec_uid (self w))) = false ->
         make_request (server w) (detail_request kw (self w))
           = (JObj fields, srv') ->
         (Py.lookup "userInfo" fields = None /\ prof = fields)
         \/ (exists ui, Py.lookup "userInfo" fields = Some (JObj ui)
                        /\ Py.lookup "user" ui = Some (JObj prof)) ->
         Py.lookup "id" prof = Some i ->
         Py.lookup "secUid" prof = Some s ->
         Py.lookup "uniqueId" prof = Some n ->
         info kw w
         = (mkWorld (mkUser i s n (Some (JObj fields))) srv'
              (log w ++ Fetch (detail_request kw (self w))
                     :: (if any_id_None (mkUser i s n (Some (JObj fields)))
                         then [LogError (JObj fields)] else [])),
            Ok (JObj fields))).
Proof.
  split.
  - intros w' resp H. apply info_cases in H.
    destruct H as [[_ H]|(resp' & srv' & Hreq & H)]; [discriminate|].
    cbn in H.
    destruct H as [(_ & H & _)|[(_ & e & H & _)|(_ & Hr & He)]];
      try discriminate.
    inversion Hr; subst resp'; clear Hr.
    apply extract_ok with (data := resp) in He; [|reflexivity].
    destruct He as (prof & Hprof & Hi & Hs & Hn & Hd & _ & Hlog).
    exists prof. repeat split; try assumption.
    rewrite Hlog. cbn [log]. rewrite <- app_assoc. reflexivity.
  - intros fields prof i s n srv' Hid Hreq Hwhere Hi Hs Hn.
    unfold info, bind, get_self, raise, do_request, set_as_dict, ret.
    cbn [fst snd]. rewrite Hid, Hreq. cbn [Py.is_None self server log].
    match goal with
    | |- context [extract_from_data ?st] =>
        rewrite (extract_profile st fields prof i s n eq_refl Hwhere Hi Hs Hn)
    end.
    cbn [self server log]. rewrite <- app_assoc. reflexivity.
Qed.

(** The payload operations raise Python's own exceptions only. *)
Lemma py_never_invalid v k d raw msg :
  Py.getitem v k <> Raise (InvalidResponseException raw msg)
  /\ Py.get v k d <> Raise (InvalidResponseException raw msg)
  /\ Py.in_keys k v <> Raise (InvalidResponseException raw msg)
  /\ Py.contains k v <> Raise (InvalidResponseException raw msg).
Proof.
  unfold Py.getitem, Py.get, Py.in_keys, Py.contains.
  destruct v; repeat split; try discriminate.
  destruct (Py.lookup k d0); discriminate.
Qed.

(** C10, as the code has it: when [info] got an answer other than [None]
    and the extraction raised [InvalidResponseException], the entity keeps
    its identifiers and holds that answer in [as_dict]; its state differs
    from the one before the call unless [as_dict] already held that same
    answer. *)
Theorem info_failure_keeps_payload kw (w w' : World) raw msg :
  info kw w = (w', Raise (InvalidResponseException raw msg)) ->
  raw <> JNull ->
  make_request (server w) (detail_request kw (self w)) = (raw, server w')
  /\ self w' = mkUser (user_id (self w)) (sec_uid (self w))
                      (username (self w)) (Some raw)
  /\ log w' = log w ++ [Fetch (detail_request kw (self w))]
  /\ (as_dict (self w) <> Some raw -> self w' <> self w).
Proof.
  intros H Hraw. apply info_cases in H.
  destruct H as [[_ H]|(resp & srv' & Hreq & H)]; [discriminate|].
  cbn in H.
  destruct H as [(_ & H & _)|[(Hresp & e & H & Hw & He)|(_ & H & _)]];
    try discriminate.
  - inversion H; subst; contradiction.
  - inversion H; subst e; clear H.
    assert (raw = resp) as ->.
    { revert He. unfold extract_from_data, bind, get_self, lift, raise, ret,
        emit, update_id_sec_uid_username. cbn [self as_dict].
      intros He. break_match; try reflexivity; exfalso;
        match goal with
        | H : _ = Raise (InvalidResponseException ?r ?m) |- _ =>
            first [ eapply (proj1 (py_never_invalid _ _ JNull r m)); exact H
                  | eapply (proj1 (proj2 (py_never_invalid _ _ _ r m))); exact H
                  | eapply (proj1 (proj2 (proj2 (py_never_invalid _ _ JNull r m)))); exact H
                  | eapply (proj2 (proj2 (proj2 (py_never_invalid _ _ JNull r m)))); exact H ]
        end. }
    subst w'. cbn. repeat split; try assumption.
    intros Hne Heq. apply Hne. rewrite <- Heq. reflexivity.
Qed.

(** X11: the profiles the guard of [__extract_from_data] refuses.  A payload whose
    [userInfo] is a dict without ["user"], or with an empty ["user"], or
    with a ["user"] dict that has no ["id"], is refused with
    [InvalidResponseException]. *)
Lemma empty_profile_is_invalid (w : World) fields ui :
  as_dict (self w) = Some (JObj fields) ->
  Py.lookup "userInfo" fields = Some (JObj ui) ->
  Py.lookup "user" ui = None \/
  (exists prof, Py.lookup "user" ui = Some (JObj prof) /\
                Py.lookup "id" prof = None) ->
  extract_from_data w =
  (w, Raise (InvalidResponseException (JObj fields) empty_user_msg)).
Proof.
  intros Hd Hui Huser.
  unfold extract_from_data, bind, get_self, lift, raise. rewrite Hd. cbn.
  rewrite Hui. cbn.
  destruct Huser as [->|(prof & -> & Hid)]; cbn; [reflexivity|].
  destruct prof as [|kv prof]; cbn; [reflexivity|].
  cbn in Hid. rewrite Hid. reflexivity.
Qed.

(** C3, as the code has it: the fetch made at the top of the loop sends
    ["count": 35] from [videos] and [liked], whatever was requested, and the
    minimum of the requested [count] and 20 from [playlists]; the number of
    items found so far plays no part. *)
Theorem page_size_sent count c0 kw (w : World) found cursor :
  found < count ->
  (forall ep,
      log (fst (step ep count c0 kw (w, GHead found cursor)))
      = log w ++ [Fetch (page_request ep count cursor kw (self w))])
  /\ Py.lookup "count" (params (page_request videos_ep count cursor kw (self w)))
     = Some (JNum 35)
  /\ Py.lookup "count" (params (page_request liked_ep count cursor kw (self w)))
     = Some (JNum 35)
  /\ Py.lookup "count" (params (page_request playlists_ep count cursor kw (self w)))
     = Some (JNum (Z.min count 20)).
Proof.
  intros Hlt. split; [|repeat split].
  intros ep.
  destruct (make_request (server w)
              (page_request ep count cursor kw (self w))) as [resp srv'] eqn:E.
  rewrite (step_head_fetch _ _ _ _ _ _ _ _ _ Hlt E). reflexivity.
Qed.

(** *** Counting the fetches of a call *)

Lemma fetches_to_app u (a b : list event) :
  fetches_to u (a ++ b) = (fetches_to u a + fetches_to u b)%nat.
Proof. unfold fetches_to. rewrite filter_app, length_app. reflexivity. Qed.

Lemma fetches_app (a b : list event) :
  fetches (a ++ b) = (fetches a + fetches b)%nat.
Proof. unfold fetches. rewrite filter_app, length_app. reflexivity. Qed.


Lemma info_log kw (w w' : World) r :
  info kw w = (w', r) ->
  exists new, log w' = log w ++ new /\ hydration_events new.
Proof.
  intros H. apply info_cases in H.
  destruct H as [[-> _]|(resp & srv' & Hreq & H)].
  - exists []. rewrite app_nil_r. repeat split. cbn. lia.
  - cbn in H.
    destruct H as [(_ & _ & ->)|[(_ & e & _ & -> & _)|(_ & _ & He)]].
    + eexists. split; [reflexivity|]. repeat split. cbn. lia.
    + eexists. split; [reflexivity|]. repeat split. cbn. lia.
    + apply extract_ok with (data := resp) in He; [|reflexivity].
      destruct He as (_ & _ & _ & _ & _ & _ & _ & Hlog).
      rewrite Hlog. cbn [log]. rewrite <- app_assoc.
      eexists. split; [reflexivity|].
      destruct (any_id_None (self w')); repeat split; cbn; lia.
Qed.

#[local] Arguments info : simpl never.

Lemma hydrate_log kw (w w' : World) r :
  hydrate_if_missing kw w = (w', r) ->
  exists new,
    log w' = log w ++ new /\ hydration_events new /\
    (Py.is_None (sec_uid (self w)) || Py.eq_empty_str (sec_uid (self w)) = false ->
     new = []).
Proof.
  unfold hydrate_if_missing, bind, get_self, ret. cbn.
  destruct (Py.is_None (sec_uid (self w)) || Py.eq_empty_str (sec_uid (self w))).
  - destruct (info kw w) as [w1 r1] eqn:Hi. intros H.
    assert (w' = w1) as -> by (destruct r1; inversion H; reflexivity).
    destruct (info_log _ _ _ _ Hi) as (new & Hlog & Hev).
    exists new. repeat split; try assumption; try apply Hev. discriminate.
  - intros H; inversion H; subst. exists []. rewrite app_nil_r.
    repeat split. cbn. lia.
Qed.

#[local] Arguments hydrate_if_missing : simpl never.


(** *** Termination *)



(** *** The loop as a whole *)

(** The first transition: hydrate if needed, then enter the loop or pass
    the exception on. *)
Lemma step_start ep count c0 kw (w w1 : World) r :
  hydrate_if_missing kw w = (w1, r) ->
  step ep count c0 kw (w, GStart)
  = (w1, match r with Ok _ => GHead 0 c0 | Raise e => GRaised e end).
Proof.
  intros H. unfold step. cbn [gen_step snd fst]. unfold bind at 1.
  rewrite H. destruct r as [[]|e]; reflexivity.
Qed.

(** What one transition does to the log and to [found]: nothing; or a
    fetch, made with [found] below [count]; or a yield, which adds one. *)
Lemma step_found ep count c0 kw (w : World) g f0 :
  found_of g = Some f0 ->
  self (fst (step ep count c0 kw (w, g))) = self w
  /\ snd (step ep count c0 kw (w, g)) <> GStart
  /\ ((log (fst (step ep count c0 kw (w, g))) = log w
       /\ (found_of (snd (step ep count c0 kw (w, g))) = Some f0 \/
           found_of (snd (step ep count c0 kw (w, g))) = None))
      \/ (exists cursor,
             log (fst (step ep count c0 kw (w, g)))
             = log w ++ [Fetch (page_request ep count cursor kw (self w))]
             /\ f0 < count
             /\ (found_of (snd (step ep count c0 kw (w, g))) = Some f0 \/
                 found_of (snd (step ep count c0 kw (w, g))) = None))
      \/ (exists x,
             log (fst (step ep count c0 kw (w, g))) = log w ++ [Yield x]
             /\ found_of (snd (step ep count c0 kw (w, g))) = Some (f0 + 1))).
Proof.
  destruct g as [|found cursor|resp rest found| |e]; cbn [found_of];
    try discriminate; intros Hf; inversion Hf; subst f0; clear Hf.
  - destruct (Z.ltb_spec found count) as [Hlt|Hge].
    + destruct (make_request (server w)
                  (page_request ep count cursor kw (self w)))
        as [resp srv'] eqn:Hreq.
      rewrite (step_head_fetch _ _ _ _ _ _ _ _ _ Hlt Hreq). cbn [fst snd self log].
      split; [reflexivity|]. split.
      * destruct (Py.is_None resp); [discriminate|].
        destruct (page_items ep resp); discriminate.
      * right; left. exists cursor. split; [reflexivity|]. split; [assumption|].
        destruct (Py.is_None resp); [right; reflexivity|].
        destruct (page_items ep resp); [left|right]; reflexivity.
    + rewrite (step_head_enough _ _ _ _ _ _ _ Hge). cbn.
      split; [reflexivity|]. split; [discriminate|]. left. auto.
  - destruct rest as [|x rest].
    + unfold step. cbn [gen_step snd fst]. unfold bind, lift, ret.
      destruct (Py.get resp "hasMore" (JBool false)) as [more|];
        [|cbn; split; [reflexivity|]; split; [discriminate|]; left; auto].
      destruct (Py.truthy more); cbn [negb];
        [|cbn; split; [reflexivity|]; split; [discriminate|]; left; auto].
      destruct (Py.get resp "cursor" JNull); cbn;
        (split; [reflexivity|]); (split; [discriminate|]); left; auto.
    + unfold step. cbn. split; [reflexivity|]. split; [discriminate|].
      right; right. eexists. split; reflexivity.
Qed.

Lemma run_finished ep count c0 kw (n : nat) (w : World) g :
  found_of g = None -> g <> GStart ->
  run ep count c0 kw n (w, g) = (w, g).
Proof.
  destruct g; cbn; try discriminate; intros _ Hg;
    [contradiction|apply run_done|apply run_raised].
Qed.

(** Inside the loop: the entity stays, the log grows by loop events. *)
Lemma loop_invariant ep count c0 kw (n : nat) :
  forall (w : World) g f0,
    found_of g = Some f0 ->
    self (fst (run ep count c0 kw n (w, g))) = self w
    /\ exists new,
        log (fst (run ep count c0 kw n (w, g))) = log w ++ new
        /\ Forall (loop_event ep count kw (self w)) new.
Proof.
  induction n as [|n IH]; intros w g f0 Hf.
  - cbn. split; [reflexivity|]. exists []. rewrite app_nil_r. auto.
  - cbn [run].
    destruct (step_found ep count c0 kw w g f0 Hf) as (Hself & Hns & Hstep).
    destruct (step ep count c0 kw (w, g)) as [w1 g1] eqn:Hs.
    cbn [fst snd] in *.
    assert (Hrest : self (fst (run ep count c0 kw n (w1, g1))) = self w1
                    /\ exists new,
                        log (fst (run ep count c0 kw n (w1, g1))) = log w1 ++ new
                        /\ Forall (loop_event ep count kw (self w1)) new).
    { destruct (found_of g1) as [f1|] eqn:Hf1.
      - exact (IH w1 g1 f1 Hf1).
      - rewrite (run_finished _ _ _ _ _ _ _ Hf1 Hns). cbn.
        split; [reflexivity|]. exists []. rewrite app_nil_r. auto. }
    destruct Hrest as (Hself' & new2 & Hlog2 & Hall2).
    rewrite Hself in *. split; [assumption|].
    destruct Hstep as [(Hl & _)|[(cur & Hl & _)|(x & Hl & _)]];
      rewrite Hlog2, Hl.
    + exists new2. auto.
    + rewrite <- app_assoc. eexists. split; [reflexivity|].
      constructor; [exists cur; reflexivity|assumption].
    + rewrite <- app_assoc. eexists. split; [reflexivity|].
      constructor; [exact I|assumption].
Qed.

(** X3: inside the loop the entity is never modified, every fetch is a
    page request of this endpoint carrying the entity's [sec_uid] and the
    same ["count"], and no error is logged, however long the generator
    runs and whatever the transport answers. *)
Theorem loop_keeps_entity ep count c0 kw (n : nat) :
  forall (w : World) found cursor,
    self (fst (run ep count c0 kw n (w, GHead found cursor))) = self w
    /\ exists new,
        log (fst (run ep count c0 kw n (w, GHead found cursor))) = log w ++ new
        /\ Forall (loop_event ep count kw (self w)) new.
Proof.
  intros w found cursor.
  exact (loop_invariant ep count c0 kw n w (GHead found cursor) found eq_refl).
Qed.

(** X4: [found] is the number of items yielded so far, and a fetch is made
    only while fewer than [count] items have been yielded: once [count]
    items are out, the transport is not called again. *)
Theorem no_fetch_after_count ep count c0 kw (n : nat) :
  forall (w : World) f0 cursor,
  exists new,
    log (fst (run ep count c0 kw n (w, GHead f0 cursor))) = log w ++ new
    /\ (forall f,
           found_of (snd (run ep count c0 kw n (w, GHead f0 cursor))) = Some f ->
           f = f0 + Z.of_nat (List.length (yielded new)))
    /\ (forall pre r post,
           new = pre ++ Fetch r :: post ->
           f0 + Z.of_nat (List.length (yielded pre)) < count).
Proof.
  assert (Hgen : forall (w : World) g f0,
             found_of g = Some f0 ->
             exists new,
               log (fst (run ep count c0 kw n (w, g))) = log w ++ new
               /\ (forall f,
                      found_of (snd (run ep count c0 kw n (w, g))) = Some f ->
                      f = f0 + Z.of_nat (List.length (yielded new)))
               /\ (forall pre r post,
                      new = pre ++ Fetch r :: post ->
                      f0 + Z.of_nat (List.length (yielded pre)) < count)).
  { induction n as [|n IH]; intros w g f0 Hf.
    - exists []. cbn [run fst snd]. rewrite app_nil_r. split; [reflexivity|].
      split.
      + intros f Hf'. rewrite Hf in Hf'. inversion Hf'. cbn. lia.
      + intros [|e pre] r post H; discriminate.
    - cbn [run].
      destruct (step_found ep count c0 kw w g f0 Hf) as (_ & Hns & Hstep).
      destruct (step ep count c0 kw (w, g)) as [w1 g1] eqn:Hs.
      cbn [fst snd] in *.
      assert (Hrest : forall f1,
                 found_of g1 = Some f1 \/ found_of g1 = None ->
                 exists new,
                   log (fst (run ep count c0 kw n (w1, g1))) = log w1 ++ new
                   /\ (forall f,
                          found_of (snd (run ep count c0 kw n (w1, g1))) = Some f ->
                          f = f1 + Z.of_nat (List.length (yielded new)))
                   /\ (forall pre r post,
                          new = pre ++ Fetch r :: post ->
                          f1 + Z.of_nat (List.length (yielded pre)) < count)).
      { intros f1 [Hf1|Hf1].
        - exact (IH w1 g1 f1 Hf1).
        - rewrite (run_finished _ _ _ _ _ _ _ Hf1 Hns). cbn [fst snd].
          exists []. rewrite app_nil_r. split; [reflexivity|]. split.
          + intros f Hf'. rewrite Hf1 in Hf'. discriminate.
          + intros [|e pre] r post H; discriminate. }
      destruct Hstep as [(Hl & Hf1)|[(cur & Hl & Hlt & Hf1)|(x & Hl & Hf1)]].
      + destruct (Hrest f0 Hf1) as (new2 & Hlog2 & Hfound2 & Hfetch2).
        exists new2. rewrite Hlog2, Hl. auto.
      + destruct (Hrest f0 Hf1) as (new2 & Hlog2 & Hfound2 & Hfetch2).
        eexists. rewrite Hlog2, Hl, <- app_assoc. split; [reflexivity|].
        cbn [app]. split.
        * intros f Hf'. cbn. exact (Hfound2 f Hf').
        * intros [|e pre] r post H.
          -- cbn. lia.
          -- inversion H; subst. cbn. exact (Hfetch2 pre r post eq_refl).
      + destruct (Hrest (f0 + 1) (or_introl Hf1))
          as (new2 & Hlog2 & Hfound2 & Hfetch2).
        eexists. rewrite Hlog2, Hl, <- app_assoc. split; [reflexivity|].
        cbn [app]. split.
        * intros f Hf'. rewrite (Hfound2 f Hf'). cbn [yielded flat_map app List.length].
          fold (yielded new2). lia.
        * intros [|e pre] r post H; [discriminate|].
          inversion H; subst. cbn [yielded flat_map app List.length].
          fold (yielded pre). pose proof (Hfetch2 pre r post eq_refl). lia. }
  intros w f0 cursor. exact (Hgen w (GHead f0 cursor) f0 eq_refl).
Qed.

Lemma fetches_yields (f : json -> Entity) (items : list json) :
  fetches (map (fun x => Yield (f x)) items) = 0%nat.
Proof. induction items as [|x items IH]; [reflexivity|exact IH]. Qed.


(** X1: the loop ends when no answer is both empty and continuing.  If the
    transport never answers with an empty or absent item list together
    with a truthy [hasMore], then from any loop test the generator returns
    or raises after finitely many steps, having made at most
    [count - found] fetches. *)
Theorem nonempty_pages_terminate ep count c0 kw (Inv : Server -> Prop) :
  (forall srv r,
      Inv srv ->
      exists resp srv',
        make_request srv r = (resp, srv') /\ Inv srv' /\
        forall fields,
          resp = JObj fields ->
          page_items ep resp = Ok [] ->
          Py.truthy (match Py.lookup "hasMore" fields with
                     | Some m => m
                     | None => JBool false
                     end) = false) ->
  forall (w : World) found cursor,
    Inv (server w) ->
    exists n w' g,
      run ep count c0 kw n (w, GHead found cursor) = (w', g)
      /\ running g = false
      /\ (fetches (log w') <= fetches (log w) + Z.to_nat (count - found))%nat.
Proof.
  intros Hsrv.
  assert (Hgen : forall m (w : World) found cursor,
             (Z.to_nat (count - found) <= m)%nat ->
             Inv (server w) ->
             exists n w' g,
               run ep count c0 kw n (w, GHead found cursor) = (w', g)
               /\ running g = false
               /\ (fetches (log w') <= fetches (log w) + Z.to_nat (count - found))%nat).
  { induction m as [|m IH]; intros w found cursor Hm Hinv;
      destruct (Z.ltb_spec found count) as [Hlt|Hge];
      try (exists 1%nat, w, GDone; cbn [run];
           rewrite (step_head_enough _ _ _ _ _ _ _ Hge);
           repeat split; lia);
      [lia|].
    destruct (Hsrv (server w) (page_request ep count cursor kw (self w)) Hinv)
      as (resp & srv' & Hreq & Hinv' & Hne).
    pose proof (step_head_fetch ep count c0 kw w found cursor resp srv'
                  Hlt Hreq) as Hstep.
    destruct (Py.is_None resp) eqn:Hnone.
    { eexists 1%nat, _, _. cbn [run]. rewrite Hstep.
      split; [reflexivity|]. split; [reflexivity|].
      cbn [log]. rewrite fetches_app. cbn. lia. }
    destruct (page_items ep resp) as [items|e] eqn:Hitems.
    2:{ eexists 1%nat, _, _. cbn [run]. rewrite Hstep.
        split; [reflexivity|]. split; [reflexivity|].
        cbn [log]. rewrite fetches_app. cbn. lia. }
    assert (Hdict : exists fields, resp = JObj fields).
    { destruct resp; cbn in Hitems; try discriminate. eauto. }
    destruct Hdict as [fields ->].
    pose proof (run_page ep count c0 kw w found cursor fields srv' items
                  Hlt Hreq Hitems) as Hpage.
    set (w1 := mkWorld (self w) srv'
                 (log w ++ Fetch (page_request ep count cursor kw (self w))
                        :: map (fun x => Yield (ep_factory ep x)) items)) in *.
    assert (Hf1 : fetches (log w1) = (fetches (log w) + 1)%nat).
    { unfold w1. cbn [log]. rewrite fetches_app.
      change (Fetch (page_request ep count cursor kw (self w))
                :: map (fun x => Yield (ep_factory ep x)) items)
        with ([Fetch (page_request ep count cursor kw (self w))]
                ++ map (fun x => Yield (ep_factory ep x)) items).
      rewrite fetches_app, fetches_yields. cbn. lia. }
    pose proof (step_page_end ep count c0 kw w1 fields
                  (found + Z.of_nat (List.length items))) as Hend.
    destruct (Py.truthy (match Py.lookup "hasMore" fields with
                         | Some m0 => m0
                         | None => JBool false
                         end)) eqn:Hmore.
    - assert (Hpos : (0 < List.length items)%nat).
      { destruct items as [|x items]; [|cbn; lia].
        rewrite (Hne fields eq_refl eq_refl) in Hmore. discriminate. }
      destruct (IH w1 (found + Z.of_nat (List.length items))
                  (match Py.lookup "cursor" fields with
                   | Some c => c
                   | None => JNull
                   end)) as (n' & w' & g & Hrun & Hg & Hcount);
        [lia|exact Hinv'|].
      exists (S (List.length items) + (1 + n'))%nat, w', g.
      rewrite run_add, Hpage. cbn [run Nat.add]. rewrite Hend.
      split; [exact Hrun|]. split; [exact Hg|]. lia.
    - exists (S (List.length items) + 1)%nat, w1, GDone.
      rewrite run_add, Hpage. cbn [run]. rewrite Hend.
      split; [reflexivity|]. split; [reflexivity|]. lia. }
  intros w found cursor Hinv.
  exact (Hgen (Z.to_nat (count - found)) w found cursor (le_n _) Hinv).
Qed.


(** X5: with [count] zero or negative the loop body never runs.  The call
    still hydrates an entity without [sec_uid] (one profile fetch, or the
    exception of [info]); after that it returns with no page fetched and
    nothing yielded. *)
Theorem nonpositive_count_skips_loop ep count c0 kw (w w1 : World) r :
  count <= 0 ->
  hydrate_if_missing kw w = (w1, r) ->
  forall k,
    run ep count c0 kw (2 + k) (w, GStart)
    = (w1, match r with Ok _ => GDone | Raise e => GRaised e end).
Proof.
  intros Hc Hh k. cbn [run Nat.add].
  rewrite (step_start _ _ _ _ _ _ _ Hh). destruct r as [[]|e].
  - rewrite step_head_enough by lia. apply run_done.
  - change (step ep count c0 kw (w1, GRaised e)) with (w1, GRaised e).
    apply run_raised.
Qed.

(** X6: on an entity whose [sec_uid] is [None] or empty and whose
    [username] is falsy, [playlists], [videos], [liked] and [videos_page]
    all end in the [TypeError] of [info] at once: nothing is fetched,
    yielded, logged or stored. *)
Theorem missing_identifier_stops_calls ep count c0 kw (w : World) :
  Py.is_None (sec_uid (self w)) || Py.eq_empty_str (sec_uid (self w)) = true ->
  Py.truthy (username (self w)) = false ->
  (forall k, run ep count c0 kw (S k) (w, GStart)
             = (w, GRaised (TypeError missing_id_msg)))
  /\ videos_page count c0 kw w = (w, Raise (TypeError missing_id_msg)).
Proof.
  intros Hs Hu.
  assert (Hfalsy : Py.truthy (sec_uid (self w)) = false).
  { destruct (sec_uid (self w)); cbn in Hs |- *; try discriminate;
      [reflexivity|]. rewrite Hs. reflexivity. }
  assert (Hinfo : info kw w = (w, Raise (TypeError missing_id_msg))).
  { unfold info, bind, get_self. cbn. rewrite Hu, Hfalsy. reflexivity. }
  assert (Hh : hydrate_if_missing kw w = (w, Raise (TypeError missing_id_msg))).
  { unfold hydrate_if_missing, bind, get_self. cbn. rewrite Hs, Hinfo.
    reflexivity. }
  split.
  - intros k. cbn [run]. rewrite (step_start _ _ _ _ _ _ _ Hh).
    apply run_raised.
  - unfold videos_page, bind at 1. rewrite Hh. reflexivity.
Qed.

(** X12: a malformed page.  An answer that is neither [None] nor a dict
    ends the generator in [AttributeError]; a dict whose item list entry
    is present but [null], a boolean or a number ends it in [TypeError]
    (only a missing entry counts as an empty page).  Either way the fetch
    is the last event. *)
Theorem malformed_page_raises ep count c0 kw (w : World) found cursor resp srv' :
  found < count ->
  make_request (server w) (page_request ep count cursor kw (self w))
    = (resp, srv') ->
  let w' := mkWorld (self w) srv'
              (log w ++ [Fetch (page_request ep count cursor kw (self w))]) in
  ((forall fields, resp <> JObj fields) -> resp <> JNull ->
   forall k, run ep count c0 kw (S k) (w, GHead found cursor)
             = (w', GRaised (AttributeError "get")))
  /\ (forall fields v,
         resp = JObj fields ->
         Py.lookup (ep_key ep) fields = Some v ->
         v = JNull \/ (exists b, v = JBool b) \/ (exists z, v = JNum z) ->
         forall k, run ep count c0 kw (S k) (w, GHead found cursor)
                   = (w', GRaised (TypeError "object is not iterable"))).
Proof.
  intros Hlt Hreq w'. split.
  - intros Hnd Hnn k. cbn [run].
    rewrite (step_head_fetch _ _ _ _ _ _ _ _ _ Hlt Hreq).
    destruct resp; try contradiction; cbn;
      try apply run_raised.
    exfalso. eapply Hnd. reflexivity.
  - intros fields v -> Hv Hbad k. cbn [run].
    rewrite (step_head_fetch _ _ _ _ _ _ _ _ _ Hlt Hreq).
    cbn [Py.is_None]. unfold page_items, Py.get. rewrite Hv.
    destruct Hbad as [->|[[b ->]|[z ->]]]; cbn; apply run_raised.
Qed.

(** *** Hydration, continued *)

(** X7: [info] refuses an entity whose [username] and [sec_uid] are both
    falsy ([None] or empty) without calling the transport; on any other
    entity it calls the transport exactly once, with the profile request,
    whatever the outcome, and logs at most one error after it. *)
Theorem info_fetch_count kw (w w' : World) r :
  info kw w = (w', r) ->
  (negb (Py.truthy (username (self w))) && negb (Py.truthy (sec_uid (self w)))
   = true ->
   w' = w /\ r = Raise (TypeError missing_id_msg))
  /\ (negb (Py.truthy (username (self w))) && negb (Py.truthy (sec_uid (self w)))
      = false ->
      server w' = snd (make_request (server w) (detail_request kw (self w)))
      /\ exists tail,
          log w' = log w ++ Fetch (detail_request kw (self w)) :: tail
          /\ fetches tail = 0%nat
          /\ (tail = [] \/ exists d, tail = [LogError d])).
Proof.
  unfold info, bind, get_self, raise, do_request, set_as_dict, ret. cbn.
  destruct (negb (Py.truthy (username (self w))) &&
            negb (Py.truthy (sec_uid (self w)))).
  - intros H; inversion H. split; [auto|discriminate].
  - destruct (make_request (server w) (detail_request kw (self w)))
      as [resp srv'] eqn:Hreq. cbn.
    intros H. split; [discriminate|]. intros _.
    destruct (Py.is_None resp).
    + inversion H; subst. cbn. split; [reflexivity|].
      exists []. auto.
    + destruct (extract_from_data _) as [w2 [[]|e]] eqn:He in H;
        inversion H; subst; clear H.
      * apply extract_ok with (data := resp) in He; [|reflexivity].
        destruct He as (_ & _ & _ & _ & _ & _ & Hsrv & Hlog).
        rewrite Hsrv, Hlog. cbn [server log]. split; [reflexivity|].
        rewrite <- app_assoc. eexists. split; [reflexivity|].
        destruct (any_id_None (self w')); [|auto].
        split; [reflexivity|]. right. eauto.
      * apply extract_raise in He. subst. cbn. split; [reflexivity|].
        exists []. auto.
Qed.

(** X8: when the transport answers [None], [info] raises
    [InvalidResponseException] and the entity is exactly as before: the
    identifiers and [as_dict] are untouched. *)
Theorem info_null_leaves_entity kw (w : World) srv' :
  negb (Py.truthy (username (self w))) && negb (Py.truthy (sec_uid (self w)))
  = false ->
  make_request (server w) (detail_request kw (self w)) = (JNull, srv') ->
  info kw w
  = (mkWorld (self w) srv' (log w ++ [Fetch (detail_request kw (self w))]),
     Raise (InvalidResponseException JNull invalid_msg)).
Proof.
  intros Hid Hreq.
  unfold info, bind, get_self, raise, do_request. cbn.
  rewrite Hid, Hreq. reflexivity.
Qed.

(** The outcome of [__extract_from_data], and the identifiers it sets,
    depend on the stored payload only. *)
Lemma extract_depends_on_payload (w v : World) d :
  as_dict (self w) = Some d ->
  as_dict (self v) = Some d ->
  snd (extract_from_data v) = snd (extract_from_data w)
  /\ (snd (extract_from_data w) = Ok tt ->
      self (fst (extract_from_data v)) = self (fst (extract_from_data w))).
Proof.
  intros Hw Hv.
  unfold extract_from_data, bind, get_self, lift, raise, ret, emit,
    update_id_sec_uid_username.
  rewrite Hw, Hv.
  destruct (Py.in_keys "userInfo" d) as [[|]|]; cbn;
    try (split; [reflexivity|discriminate]).
  - destruct (Py.getitem d "userInfo") as [ui|]; cbn;
      try (split; [reflexivity|discriminate]).
    destruct (Py.get ui "user" (JObj [])) as [prof|]; cbn;
      try (split; [reflexivity|discriminate]).
    destruct (Py.truthy prof); cbn; try (split; [reflexivity|discriminate]).
    destruct (Py.contains "id" prof) as [[|]|]; cbn;
      try (split; [reflexivity|discriminate]).
    destruct (Py.getitem prof "id") as [i|]; cbn;
      try (split; [reflexivity|discriminate]).
    destruct (Py.getitem prof "secUid") as [s|]; cbn;
      try (split; [reflexivity|discriminate]).
    destruct (Py.getitem prof "uniqueId") as [n|]; cbn;
      try (split; [reflexivity|discriminate]).
    rewrite Hw, Hv.
    destruct (any_id_None (mkUser i s n (Some d))); cbn; auto.
  - destruct (Py.getitem d "id") as [i|]; cbn;
      try (split; [reflexivity|discriminate]).
    destruct (Py.getitem d "secUid") as [s|]; cbn;
      try (split; [reflexivity|discriminate]).
    destruct (Py.getitem d "uniqueId") as [n|]; cbn;
      try (split; [reflexivity|discriminate]).
    rewrite Hw, Hv.
    destruct (any_id_None (mkUser i s n (Some d))); cbn; auto.
Qed.

(** X9: a successful hydration is determined by the payload.  Whatever the
    entity held before, [info] returning payload [d] leaves the same four
    fields as any other successful [info] returning [d], and the same as
    the constructor called with [data=d], whose other arguments are
    overwritten. *)
Theorem hydration_determined_by_payload kw (w w' : World) d :
  info kw w = (w', Ok d) ->
  (forall kw2 (v v' : World), info kw2 v = (v', Ok d) -> self v' = self w')
  /\ (forall srv a b c,
         exists v', construct srv a b c d = (v', Ok tt) /\ self v' = self w').
Proof.
  assert (Hstored : forall kw1 (w1 w1' : World),
             info kw1 w1 = (w1', Ok d) ->
             d <> JNull /\
             exists st, as_dict (self st) = Some d
                        /\ extract_from_data st = (w1', Ok tt)).
  { intros kw1 w1 w1' H. apply info_cases in H.
    destruct H as [[_ H]|(resp & srv' & _ & H)]; [discriminate|]. cbn in H.
    destruct H as [(_ & H & _)|[(_ & e & H & _)|(Hn & Hr & He)]];
      try discriminate.
    inversion Hr; subst resp. split; [assumption|].
    eexists. split; [|exact He]. reflexivity. }
  intros H. destruct (Hstored _ _ _ H) as (Hd & st & Hst & He).
  split.
  - intros kw2 v v' Hv. destruct (Hstored _ _ _ Hv) as (_ & sv & Hsv & Hev).
    destruct (extract_depends_on_payload st sv d Hst Hsv) as (_ & Hself).
    rewrite He, Hev in Hself. cbn in Hself. apply Hself. reflexivity.
  - intros srv a b c.
    unfold construct, init, bind, update_id_sec_uid_username, set_as_dict, ret.
    cbn [self server log as_dict user_id sec_uid username].
    destruct (Py.is_None d) eqn:Hnone; [destruct d; try discriminate; contradiction|].
    match goal with
    | |- context [extract_from_data ?x] => set (sv := x)
    end.
    destruct (extract_depends_on_payload st sv d Hst eq_refl) as (Hsnd & Hself).
    rewrite He in Hsnd, Hself. cbn in Hsnd, Hself.
    destruct (extract_from_data sv) as [v' rv]. cbn in Hsnd, Hself. subst rv.
    exists v'. split; [reflexivity|]. apply Hself. reflexivity.
Qed.

(** X10: a payload that carries ["id"], ["secUid"] and ["uniqueId"], at top
    level when it has no ["userInfo"] key or else inside the dict
    [userInfo.user], is accepted by the constructor without any fetch: the
    identifiers become those three entries, whatever was passed beside
    [data], and an error is logged exactly when one of them is [null]. *)
Theorem profile_fields_hydrate (srv : Server) a b c fields prof i s n :
  (Py.lookup "userInfo" fields = None /\ prof = fields)
  \/ (exists ui, Py.lookup "userInfo" fields = Some (JObj ui)
                 /\ Py.lookup "user" ui = Some (JObj prof)) ->
  Py.lookup "id" prof = Some i ->
  Py.lookup "secUid" prof = Some s ->
  Py.lookup "uniqueId" prof = Some n ->
  construct srv a b c (JObj fields)
  = (mkWorld (mkUser i s n (Some (JObj fields))) srv
       (if any_id_None (mkUser i s n (Some (JObj fields)))
        then [LogError (JObj fields)] else []),
     Ok tt).
Proof.
  intros Hwhere Hi Hs Hn.
  unfold construct, init, extract_from_data, bind, get_self, lift, raise,
    ret, emit, update_id_sec_uid_username, set_as_dict.
  cbn [Py.is_None self server log as_dict user_id sec_uid username
       Py.in_keys Py.getitem Py.get].
  destruct Hwhere as [[Hui ->]|(ui & Hui & Huser)]; rewrite Hui.
  - rewrite Hi, Hs, Hn. cbn.
    destruct (any_id_None _); reflexivity.
  - cbn. rewrite Huser.
    assert (Htruthy : Py.truthy (JObj prof) = true).
    { destruct prof; [discriminate|reflexivity]. }
    rewrite Htruthy. cbn. rewrite Hi, Hs, Hn. cbn.
    destruct (any_id_None _); reflexivity.
Qed.

(** With [sec_uid] known there is nothing to hydrate. *)
Lemma hydrate_known kw (w : World) :
  Py.is_None (sec_uid (self w)) || Py.eq_empty_str (sec_uid (self w)) = false ->
  hydrate_if_missing kw w = (w, Ok tt).
Proof.
  intros H. unfold hydrate_if_missing, bind, get_self. cbn.
  rewrite H. reflexivity.
Qed.

Lemma loop_events_not_detail ep count kw u (new : list event) :
  String.eqb (ep_url ep) detail_url = false ->
  Forall (loop_event ep count kw u) new ->
  fetches_to detail_url new = 0%nat.
Proof.
  intros Hurl Hall. induction Hall as [|e new He _ IH]; [reflexivity|].
  change (e :: new) with ([e] ++ new). rewrite fetches_to_app, IH.
  destruct e as [r| |]; cbn in He |- *; try reflexivity.
  destruct He as [cursor ->]. unfold fetches_to. cbn.
  rewrite Hurl. reflexivity.
Qed.

(** X13: a pagination call hydrates at most once.  For an endpoint other
    than the profile URL, however long the generator runs, the log shows
    at most one profile fetch; with [sec_uid] known it shows none and the
    entity is never modified. *)
Theorem generator_hydrates_at_most_once ep count c0 kw :
  String.eqb (ep_url ep) detail_url = false ->
  forall n (w : World),
  exists new,
    log (fst (run ep count c0 kw n (w, GStart))) = log w ++ new
    /\ (fetches_to detail_url new <= 1)%nat
    /\ (Py.is_None (sec_uid (self w)) || Py.eq_empty_str (sec_uid (self w))
        = false ->
        fetches_to detail_url new = 0%nat
        /\ self (fst (run ep count c0 kw n (w, GStart))) = self w).
Proof.
  intros Hurl [|n] w.
  - exists []. cbn. rewrite app_nil_r. repeat split; lia.
  - cbn [run].
    destruct (hydrate_if_missing kw w) as [w1 r] eqn:Hh.
    rewrite (step_start _ _ _ _ _ _ _ Hh).
    destruct (hydrate_log _ _ _ _ Hh) as (new1 & Hlog1 & (H1 & _) & Hknown).
    destruct r as [[]|e].
    + destruct (loop_invariant ep count c0 kw n w1 (GHead 0 c0) 0 eq_refl)
        as (Hself & new2 & Hlog2 & Hall).
      pose proof (loop_events_not_detail _ _ _ _ _ Hurl Hall) as H2.
      exists (new1 ++ new2). rewrite Hlog2, Hlog1, app_assoc.
      split; [reflexivity|]. rewrite fetches_to_app, H2.
      split; [lia|]. intros Hk. rewrite (Hknown Hk). split; [reflexivity|].
      rewrite Hself. rewrite (hydrate_known _ _ Hk) in Hh.
      inversion Hh. reflexivity.
    + rewrite run_raised. cbn [fst]. exists new1.
      split; [exact Hlog1|]. split; [lia|].
      intros Hk. rewrite (hydrate_known _ _ Hk) in Hh. discriminate.
Qed.

(** X14: the constructor never calls the transport.  With or without
    [data], accepted or refused, it leaves the transport as it was and
    the log without a fetch or a yield. *)
Theorem construct_no_network (srv : Server) a b c d :
  server (fst (construct srv a b c d)) = srv
  /\ fetches (log (fst (construct srv a b c d))) = 0%nat
  /\ yielded (log (fst (construct srv a b c d))) = [].
Proof.
  unfold construct, init, bind, update_id_sec_uid_username, set_as_dict, ret.
  cbn [self server log as_dict user_id sec_uid username].
  destruct (Py.is_None d); [cbn; auto|].
  match goal with
  | |- context [extract_from_data ?x] =>
      destruct (extract_from_data x) as [w2 [[]|e]] eqn:He
  end; cbn [fst].
  - apply extract_ok with (data := d) in He; [|reflexivity].
    destruct He as (_ & _ & _ & _ & _ & _ & Hsrv & Hlog).
    rewrite Hsrv, Hlog. cbn [server log app].
    destruct (any_id_None (self w2)); cbn; auto.
  - apply extract_raise in He. subst. cbn. auto.
Qed.

(** X15: [videos_page] on an entity with a known [sec_uid], answered with a
    dict: one fetch of the item list carrying the caller's cursor and
    ["count"] capped at 35, the entity untouched, and a result holding one
    entity per item, the ["cursor"] entry or [None], and the ["hasMore"]
    entry or [False]. *)
Theorem videos_page_known count cursor kw (w : World) fields srv' items :
  Py.is_None (sec_uid (self w)) || Py.eq_empty_str (sec_uid (self w)) = false ->
  let r := mkRequest item_list_url
             [("secUid", sec_uid (self w));
              ("count", JNum (Z.min count 35));
              ("cursor", cursor)]
             (kwargs_get kw "headers") (kwargs_get kw "session")
             (kwargs_get kw "session_index") in
  make_request (server w) r = (JObj fields, srv') ->
  Py.iter (match Py.lookup "itemList" fields with
           | Some l => l
           | None => JArr []
           end) = Ok items ->
  videos_page count cursor kw w
  = (mkWorld (self w) srv' (log w ++ [Fetch r]),
     Ok [("videos", PList (map video items));
         ("cursor", PJson (match Py.lookup "cursor" fields with
                           | Some c => c
                           | None => JNull
                           end));
         ("hasMore", PJson (match Py.lookup "hasMore" fields with
                            | Some m => m
                            | None => JBool false
                            end))])
  /\ Z.min count 35 <= 35.
Proof.
  intros Hk r Hreq Hitems. split; [|lia].
  unfold videos_page, bind at 1. rewrite (hydrate_known _ _ Hk).
  unfold bind, get_self, do_request, raise, lift, ret. cbn.
  fold r. rewrite Hreq. cbn. rewrite Hitems. reflexivity.
Qed.

End Facts.

(** ** The code on concrete inputs *)

(** The profile of the specification's example hydrates to its three
    entries. *)
Example hydrate_bob :
  exists w', @info replay_parent [] (world_of only_bob [profile_bob])
             = (w', Ok profile_bob)
             /\ self w' = mkUser (JStr "1") (JStr "s1") (JStr "bob")
                                 (Some profile_bob).
Proof. eexists. split; reflexivity. Qed.

(** Two items with a continuation, then one item without: three items over
    two fetches. *)
Example three_items_two_fetches :
  let pages := [page "itemList" 2 (JStr "10") (JBool true);
                page "itemList" 1 (JStr "11") (JBool false)] in
  let c := @videos replay_parent 30 (JNum 0) [] 8
             (world_of known_bob pages, GStart) in
  snd c = GDone
  /\ List.length (yielded (log (fst c))) = 3%nat
  /\ fetches (log (fst c)) = 2%nat.
Proof. vm_compute. repeat split. Qed.

(** C7: a profile that has an ["id"] and no ["secUid"] is not refused with
    [InvalidResponseException]: the constructor and [info] both end in
    [KeyError], and so does the constructor on a payload with no profile
    entry at all. *)
Theorem profile_without_secUid_raises_KeyError :
  snd (@construct replay_parent [] JNull JNull JNull profile_only_id)
    = Raise (KeyError "secUid")
  /\ snd (@info replay_parent [] (world_of only_bob [profile_only_id]))
    = Raise (KeyError "secUid")
  /\ snd (@construct replay_parent [] JNull JNull JNull (JObj []))
    = Raise (KeyError "id").
Proof. repeat split. Qed.

(** [videos] asked for one item sends ["count": 35]; [playlists] asked for
    30 items sends ["count": 20] again after the 20 items of a first page.
    Neither is the minimum of what remains and the cap. *)
Lemma page_size_ignores_remaining :
  (exists r,
      requests (log (fst (@videos replay_parent 1 (JNum 0) [] 2
                            (world_of known_bob
                               [page "itemList" 1 (JStr "1") (JBool false)],
                             GStart)))) = [r]
      /\ Py.lookup "count" (params r) = Some (JNum 35)
      /\ JNum 35 <> JNum (Z.min (1 - 0) 35))
  /\ (exists r1 r2 w',
      @playlists replay_parent 30 (JNum 0) [] 24
        (world_of known_bob [page "playList" 20 (JStr "20") (JBool true)],
         GStart)
      = (w', GRaised (InvalidResponseException JNull invalid_msg))
      /\ requests (log w') = [r1; r2]
      /\ List.length (yielded (log w')) = 20%nat
      /\ Py.lookup "count" (params r2) = Some (JNum 20)
      /\ JNum 20 <> JNum (Z.min (30 - 20) 20)).
Proof.
  split.
  - eexists. split; [reflexivity|]. split; [reflexivity|discriminate].
  - eexists _, _, _. split; [vm_compute; reflexivity|].
    split; [reflexivity|]. split; [reflexivity|].
    split; [reflexivity|discriminate].
Qed.

(** [User(username="bob")], hydrated from a profile whose ["secUid"] is
    [null]: [info] returns the payload and [sec_uid] is [None]. *)
Lemma info_returns_with_null_sec_uid :
  fst (@construct replay_parent [profile_null_sec] (JStr "bob") JNull JNull JNull)
    = world_of only_bob [profile_null_sec]
  /\ exists w',
      @info replay_parent [] (world_of only_bob [profile_null_sec])
        = (w', Ok profile_null_sec)
      /\ user_id (self w') = JStr "1"
      /\ sec_uid (self w') = JNull
      /\ username (self w') = JStr "bob"
      /\ log w' = [Fetch (detail_request [] only_bob); LogError profile_null_sec].
Proof. split; [reflexivity|]. eexists. repeat split. Qed.

(** [info] failing twice on the same answer: the second failure leaves the
    entity exactly as it found it. *)
Lemma failed_info_repeated_same_state :
  let w1 := fst (@info replay_parent []
                   (world_of only_bob [profile_absent; profile_absent])) in
  exists w2,
    @info replay_parent [] w1
      = (w2, Raise (InvalidResponseException profile_absent empty_user_msg))
    /\ profile_absent <> JNull
    /\ self w2 = self w1.
Proof.
  eexists. split; [reflexivity|]. split; [discriminate|reflexivity].
Qed.

(** ** The theorems at concrete inputs *)


(** Two items yielded from a first page, then no answer: the generator is
    finished by the exception, with two yields and two fetches in the log. *)
Lemma null_response_aborts_witness :
  let w0 := world_of known_bob
              [page "itemList" 2 (JStr "10") (JBool true); JNull] in
  let c1 := @videos replay_parent 30 (JNum 0) [] 4 (w0, GHead 0 (JNum 0)) in
  snd c1 = GHead 2 (JStr "10")
  /\ exists w2,
      @videos replay_parent 30 (JNum 0) [] 3 (fst c1, GHead 2 (JStr "10"))
        = (w2, GRaised (InvalidResponseException JNull invalid_msg))
      /\ List.length (yielded (log w2)) = 2%nat
      /\ fetches (log w2) = 2%nat.
Proof.
  intros w0 c1. split; [reflexivity|].
  eexists. split.
  - exact (null_response_aborts (parent := replay_parent)
             videos_ep 30 (JNum 0) [] (fst c1) 2 (JStr "10") []
             eq_refl eq_refl 2%nat).
  - vm_compute. split; reflexivity.
Defined.

(** [playlists] asked for 30 sends 20. *)
Lemma page_size_sent_witness :
  0 < 30
  /\ Py.lookup "count"
       (params (@page_request replay_parent playlists_ep 30 (JNum 0) [] known_bob))
     = Some (JNum 20).
Proof.
  split; [reflexivity|].
  exact (proj2 (proj2 (proj2
           (page_size_sent (parent := replay_parent) 30 (JNum 0) []
              (world_of known_bob []) 0 (JNum 0) eq_refl)))).
Defined.

(** Thirty items requested, a page of two without ["hasMore"]: two yields,
    one fetch, and the generator has returned. *)
Lemma stops_without_continuation_witness :
  let w0 := world_of known_bob [page_without_has_more; page_without_has_more] in
  exists w',
    @videos replay_parent 30 (JNum 0) [] 9 (w0, GHead 0 (JNum 0))
      = (w', GDone)
    /\ List.length (yielded (log w')) = 2%nat
    /\ fetches (log w') = 1%nat.
Proof.
  intros w0. eexists. split.
  - exact (stops_without_continuation (parent := replay_parent)
             videos_ep 30 (JNum 0) [] w0 0 (JNum 0)
             [("itemList", JArr (repeat (JObj [("id", JStr "v")]) 2));
              ("cursor", JStr "10")]
             [page_without_has_more]
             (repeat (JObj [("id", JStr "v")]) 2)
             eq_refl eq_refl eq_refl (or_introl eq_refl) 5%nat).
  - vm_compute. split; reflexivity.
Defined.

(** [User()] has no identifier. *)
Lemma info_without_identifier_witness :
  username blank = JNull /\ sec_uid blank = JNull
  /\ @info replay_parent [] (world_of blank [profile_bob])
     = (world_of blank [profile_bob], Raise (TypeError missing_id_msg)).
Proof.
  split; [reflexivity|]. split; [reflexivity|].
  exact (info_without_identifier (parent := replay_parent) []
           (world_of blank [profile_bob]) eq_refl eq_refl).
Defined.

(** [User(username="bob")] hydrated from a profile whose ["secUid"] is
    [null]: the call returns the payload, [sec_uid] stays [None] and the
    error is logged after the fetch. *)
Lemma info_success_identifiers_witness :
  let w0 := world_of only_bob [profile_null_sec] in
  @info replay_parent [] w0
  = (@mkWorld replay_parent
       (mkUser (JStr "1") JNull (JStr "bob") (Some profile_null_sec)) []
       [Fetch (detail_request [] only_bob); LogError profile_null_sec],
     Ok profile_null_sec)
  /\ exists prof,
      Py.getitem prof "secUid" = Ok JNull
      /\ Py.getitem prof "uniqueId" = Ok (JStr "bob").
Proof.
  intros w0.
  destruct (info_success_identifiers (parent := replay_parent) [] w0)
    as [Hfwd Hback].
  assert (Hrun : @info replay_parent [] w0
                 = (@mkWorld replay_parent
                      (mkUser (JStr "1") JNull (JStr "bob")
                         (Some profile_null_sec)) []
                      [Fetch (detail_request [] only_bob);
                       LogError profile_null_sec],
                    Ok profile_null_sec)).
  { exact (Hback
             [("userInfo",
               JObj [("user", JObj [("id", JStr "1"); ("secUid", JNull);
                                    ("uniqueId", JStr "bob")])])]
             [("id", JStr "1"); ("secUid", JNull); ("uniqueId", JStr "bob")]
             (JStr "1") JNull (JStr "bob") []
             eq_refl eq_refl
             (or_intror
                (ex_intro _
                   [("user", JObj [("id", JStr "1"); ("secUid", JNull);
                                   ("uniqueId", JStr "bob")])]
                   (conj eq_refl eq_refl)))
             eq_refl eq_refl eq_refl). }
  split; [exact Hrun|].
  destruct (Hfwd _ _ Hrun) as (prof & _ & _ & Hs & Hn & _).
  exists prof. split; [exact Hs|exact Hn].
Defined.

(** [User(username="bob")] hydrated from an answer without profile: the
    call fails and the entity now holds that answer. *)
Lemma info_failure_keeps_payload_witness :
  let c := @info replay_parent [] (world_of only_bob [profile_absent]) in
  c = (fst c, Raise (InvalidResponseException profile_absent empty_user_msg))
  /\ as_dict (self (fst c)) = Some profile_absent
  /\ self (fst c) <> only_bob.
Proof.
  intros c.
  assert (Hc : c = (fst c, Raise (InvalidResponseException profile_absent
                                    empty_user_msg))) by reflexivity.
  split; [exact Hc|].
  destruct (info_failure_keeps_payload (parent := replay_parent) []
              (world_of only_bob [profile_absent]) (fst c)
              profile_absent empty_user_msg Hc
              ltac:(discriminate)) as (_ & Hself & _ & Hdiff).
  split.
  - rewrite Hself. reflexivity.
  - apply Hdiff. discriminate.
Defined.



(** ** The further theorems at concrete inputs *)

(** Five items requested from a transport that always answers a page of
    two: the generator finishes within five fetches. *)
Lemma nonempty_pages_terminate_witness :
  exists n w' g,
    @videos (always_parent (page "itemList" 2 (JStr "c") (JBool true)))
      5 (JNum 0) [] n
      (@mkWorld (always_parent (page "itemList" 2 (JStr "c") (JBool true)))
         known_bob tt [], GHead 0 (JNum 0))
    = (w', g)
    /\ running g = false
    /\ (fetches (log w') <= 5)%nat.
Proof.
  refine (nonempty_pages_terminate
            (parent := always_parent (page "itemList" 2 (JStr "c") (JBool true)))
            videos_ep 5 (JNum 0) [] (fun _ => True) _
            (@mkWorld (always_parent (page "itemList" 2 (JStr "c") (JBool true)))
               known_bob tt [])
            0 (JNum 0) I).
  intros srv r _.
  exists (page "itemList" 2 (JStr "c") (JBool true)), tt.
  split; [reflexivity|]. split; [exact I|].
  intros fields _ Hitems. cbv in Hitems. discriminate Hitems.
Defined.


(** [videos(count=0)] on [User(username="bob")]: the profile is fetched,
    no page is. *)
Lemma nonpositive_count_skips_loop_witness :
  let w0 := world_of only_bob [profile_bob] in
  let c := @hydrate_if_missing replay_parent [] w0 in
  @videos replay_parent 0 (JNum 0) [] 2 (w0, GStart) = (fst c, GDone)
  /\ fetches_to detail_url (log (fst c)) = 1%nat
  /\ fetches (log (fst c)) = 1%nat.
Proof.
  intros w0 c. split; [|split; reflexivity].
  exact (nonpositive_count_skips_loop (parent := replay_parent)
           videos_ep 0 (JNum 0) [] w0 (fst c) (snd c)
           ltac:(lia) eq_refl 0%nat).
Defined.

(** [User()]: every call ends in the [TypeError], with the world as it was. *)
Lemma missing_identifier_stops_calls_witness :
  @videos replay_parent 30 (JNum 0) [] 4 (world_of blank [profile_bob], GStart)
  = (world_of blank [profile_bob], GRaised (TypeError missing_id_msg))
  /\ @videos_page replay_parent 30 (JNum 0) [] (world_of blank [profile_bob])
     = (world_of blank [profile_bob], Raise (TypeError missing_id_msg)).
Proof.
  destruct (missing_identifier_stops_calls (parent := replay_parent)
              videos_ep 30 (JNum 0) [] (world_of blank [profile_bob])
              eq_refl eq_refl) as [Hgen Hpage].
  split; [exact (Hgen 3%nat)|exact Hpage].
Defined.

(** [User(username="bob").info()]: one fetch, nothing logged after it. *)
Lemma info_fetch_count_witness :
  let c := @info replay_parent [] (world_of only_bob [profile_bob]) in
  exists tail,
    log (fst c) = Fetch (detail_request [] only_bob) :: tail
    /\ fetches tail = 0%nat.
Proof.
  intros c.
  destruct (proj2 (info_fetch_count (parent := replay_parent) []
                     (world_of only_bob [profile_bob]) (fst c) (snd c) eq_refl)
              eq_refl) as (_ & tail & Hlog & Hf & _).
  exists tail. split; [exact Hlog|exact Hf].
Defined.

(** [User(username="bob").info()] with no answer. *)
Lemma info_null_leaves_entity_witness :
  @info replay_parent [] (world_of only_bob [])
  = (@mkWorld replay_parent only_bob [] [Fetch (detail_request [] only_bob)],
     Raise (InvalidResponseException JNull invalid_msg)).
Proof.
  exact (info_null_leaves_entity (parent := replay_parent) []
           (world_of only_bob []) [] eq_refl eq_refl).
Defined.

(** [User(username="bob").info()] and [User("x", data=...)] on the same
    profile end with the same fields. *)
Lemma hydration_determined_by_payload_witness :
  let c := @info replay_parent [] (world_of only_bob [profile_bob]) in
  exists v',
    @construct replay_parent [] (JStr "x") JNull JNull profile_bob = (v', Ok tt)
    /\ self v' = self (fst c)
    /\ username (self v') = JStr "bob".
Proof.
  intros c.
  destruct (proj2 (hydration_determined_by_payload (parent := replay_parent) []
                     (world_of only_bob [profile_bob]) (fst c) profile_bob
                     eq_refl)
              [] (JStr "x") JNull JNull) as (v' & Hv & Hself).
  exists v'. split; [exact Hv|]. split; [exact Hself|].
  rewrite Hself. reflexivity.
Defined.

(** The profile of the specification's example, given to the constructor. *)
Lemma profile_fields_hydrate_witness :
  @construct replay_parent [] JNull JNull JNull profile_bob
  = (@mkWorld replay_parent
       (mkUser (JStr "1") (JStr "s1") (JStr "bob") (Some profile_bob)) [] [],
     Ok tt).
Proof.
  exact (profile_fields_hydrate (parent := replay_parent) [] JNull JNull JNull
           [("userInfo",
             JObj [("user", JObj [("id", JStr "1"); ("secUid", JStr "s1");
                                  ("uniqueId", JStr "bob")])])]
           [("id", JStr "1"); ("secUid", JStr "s1"); ("uniqueId", JStr "bob")]
           (JStr "1") (JStr "s1") (JStr "bob")
           (or_intror
              (ex_intro _
                 [("user", JObj [("id", JStr "1"); ("secUid", JStr "s1");
                                 ("uniqueId", JStr "bob")])]
                 (conj eq_refl eq_refl)))
           eq_refl eq_refl eq_refl).
Defined.

(** [{"userInfo": {}}] stored in an entity is refused. *)
Lemma empty_profile_is_invalid_witness :
  let w := @mkWorld replay_parent
             (mkUser JNull JNull (JStr "bob") (Some profile_absent)) [] [] in
  @extract_from_data replay_parent w
  = (w, Raise (InvalidResponseException profile_absent empty_user_msg)).
Proof.
  intros w.
  exact (empty_profile_is_invalid (parent := replay_parent) w
           [("userInfo", JObj [])] [] eq_refl eq_refl (or_introl eq_refl)).
Defined.

(** [{"itemList": null, "hasMore": true}] as first page of [videos]. *)
Lemma malformed_page_raises_witness :
  let w0 := world_of known_bob
              [JObj [("itemList", JNull); ("hasMore", JBool true)]] in
  exists w',
    @videos replay_parent 30 (JNum 0) [] 1 (w0, GHead 0 (JNum 0))
    = (w', GRaised (TypeError "object is not iterable"))
    /\ yielded (log w') = []
    /\ fetches (log w') = 1%nat.
Proof.
  intros w0.
  pose proof (malformed_page_raises (parent := replay_parent)
                videos_ep 30 (JNum 0) [] w0 0 (JNum 0)
                (JObj [("itemList", JNull); ("hasMore", JBool true)]) []
                eq_refl eq_refl) as H.
  cbv zeta in H. destruct H as [_ H].
  eexists. split.
  - exact (H [("itemList", JNull); ("hasMore", JBool true)] JNull
             eq_refl eq_refl (or_introl eq_refl) 0%nat).
  - split; reflexivity.
Defined.

(** [videos] on [User(username="bob")], run for ten steps over a profile
    and a page: one profile fetch. *)
Lemma generator_hydrates_at_most_once_witness :
  let w0 := world_of only_bob
              [profile_bob; page "itemList" 2 (JStr "10") (JBool true)] in
  exists new,
    log (fst (@videos replay_parent 30 (JNum 0) [] 10 (w0, GStart))) = new
    /\ (fetches_to detail_url new <= 1)%nat
    /\ fetches new = 3%nat.
Proof.
  intros w0.
  destruct (generator_hydrates_at_most_once (parent := replay_parent)
              videos_ep 30 (JNum 0) [] eq_refl 10%nat w0)
    as (new & Hlog & Hone & _).
  exists new. split; [exact Hlog|]. split; [exact Hone|].
  change (log (fst (@videos replay_parent 30 (JNum 0) [] 10 (w0, GStart))) = new)
    in Hlog.
  rewrite <- Hlog. reflexivity.
Defined.

(** [videos_page(count=100)] on a known entity asks for 35 and returns the
    two items of the answer. *)
Lemma videos_page_known_witness :
  let w0 := world_of known_bob [page "itemList" 2 (JStr "10") (JBool true)] in
  exists r w',
    @videos_page replay_parent 100 (JNum 0) [] w0
    = (w', Ok [("videos", @PList replay_parent
                            [Video (JObj [("id", JStr "v")]);
                             Video (JObj [("id", JStr "v")])]);
               ("cursor", PJson (JStr "10"));
               ("hasMore", PJson (JBool true))])
    /\ log w' = [Fetch r]
    /\ Py.lookup "count" (params r) = Some (JNum 35).
Proof.
  intros w0.
  pose proof (videos_page_known (parent := replay_parent) 100 (JNum 0) [] w0
                [("itemList", JArr (repeat (JObj [("id", JStr "v")]) 2));
                 ("cursor", JStr "10"); ("hasMore", JBool true)]
                [] (repeat (JObj [("id", JStr "v")]) 2)
                eq_refl) as H.
  cbv zeta in H. destruct (H eq_refl eq_refl) as [Hrun _].
  eexists _, _. split; [exact Hrun|]. split; reflexivity.
Defined.

